(** * RegexStringBuilder: a shallow embedding of [RegexBuilder/regex_builder.py]

    The builder is one mutable Python object.  Its methods are modelled as
    computations in a state-and-exception monad over a [world] that holds the
    object's three attributes and the text written to standard output.  A
    method that ends in [return self] yields the reference [Self]: there is a
    single builder in the world, so the reference and the receiver alias. *)

From Stdlib Require Import String Ascii List ZArith Bool Lia.
From Stdlib Require Import DecimalString.
From Stdlib Require DecimalZ.
Import ListNotations.
Open Scope string_scope.

(** ** Python values and exceptions *)

Module Py.

(** The argument values a caller passes to the builder: [None], booleans,
    integers and strings. *)
Inductive value : Type :=
| PyNone
| PyBool (b : bool)
| PyInt (z : Z)
| PyStr (s : string).

Inductive exn : Type :=
| AttributeError (type_name attr : string)
| NameError (name : string)
| TypeError (msg : string)
| ValueError (msg : string).

Inductive outcome (A : Type) : Type :=
| Return (a : A)
| Raise (e : exn).
Arguments Return {A} a.
Arguments Raise {A} e.

Definition type_name (v : value) : string :=
  match v with
  | PyNone => "NoneType"
  | PyBool _ => "bool"
  | PyInt _ => "int"
  | PyStr _ => "str"
  end.

(** [x is None] *)
Definition is_none (v : value) : bool :=
  match v with PyNone => true | _ => false end.

(** Truth value of [v] as tested by [if v:]. *)
Definition truthy (v : value) : bool :=
  match v with
  | PyNone => false
  | PyBool b => b
  | PyInt z => negb (Z.eqb z 0)
  | PyStr s => negb (String.eqb s "")
  end.

(** The decimal numeral of an integer and the number of its digits. *)
Definition decimal (z : Z) : string := NilZero.string_of_int (Z.to_int z).

Definition digits (z : Z) : nat := String.length (decimal (Z.abs z)).

(** [sys.get_int_max_str_digits()] as CPython sets it by default from
    version 3.11 on. *)
Definition int_max_str_digits : nat := 4300.

(** [str(z)] for an integer: the conversion to decimal is refused when the
    numeral, sign apart, has more digits than the interpreter's limit. *)
Definition int_to_str (z : Z) : outcome string :=
  if Nat.leb (digits z) int_max_str_digits
  then Return (decimal z)
  else
    Raise (ValueError
             "Exceeds the limit (4300 digits) for integer string conversion; use sys.set_int_max_str_digits() to increase the limit").

(** [f"{v}"], which is [str(v)] for these types. *)
Definition format (v : value) : outcome string :=
  match v with
  | PyNone => Return "None"
  | PyBool true => Return "True"
  | PyBool false => Return "False"
  | PyInt z => int_to_str z
  | PyStr s => Return s
  end.

(** Whether [f"{v}"] yields a text. *)
Definition renders (v : value) : bool :=
  match format v with
  | Return _ => true
  | Raise _ => false
  end.

(** [v == s] for a string literal [s]. *)
Definition eq_str (v : value) (s : string) : bool :=
  match v with
  | PyStr t => String.eqb t s
  | _ => false
  end.

(** [sep.join(items)]: every item has to be a [str]. *)
Fixpoint join_from (i : nat) (sep : string) (items : list value)
  : outcome string :=
  match items with
  | [] => Return ""
  | v :: rest =>
      match v with
      | PyStr s =>
          match rest with
          | [] => Return s
          | _ :: _ =>
              match join_from (S i) sep rest with
              | Return t => Return (s ++ sep ++ t)
              | Raise e => Raise e
              end
          end
      | _ =>
          Raise (TypeError ("sequence item "
                            ++ NilZero.string_of_uint (Nat.to_uint i)
                            ++ ": expected str instance, "
                            ++ type_name v ++ " found"))
      end
  end.

Definition join (sep : string) (items : list value) : outcome string :=
  join_from 0 sep items.

(** [l += s] for a list [l] and a string [s]: the list is extended with
    the items of the iterable [s], its characters one by one. *)
Definition chars (s : string) : list value :=
  map (fun c => PyStr (String c "")) (list_ascii_of_string s).

Definition list_iadd_str (l : list value) (s : string) : list value :=
  l ++ chars s.

End Py.
Import Py.

(** ** The builder object and the world *)

Record RegexStringBuilder : Type := mkBuilder {
  regex_string : string;
  regex_flags : list value;
  previous_methods : list value
}.

Record world : Type := mkWorld {
  self : RegexStringBuilder;
  stdout : list string
}.

(** [RegexStringBuilder()], that is [__init__]. *)
Definition init : RegexStringBuilder :=
  {| regex_string := ""; regex_flags := []; previous_methods := [] |}.

Definition fresh : world := {| self := init; stdout := [] |}.

(** What a call evaluates to: the builder itself or a plain value. *)
Inductive ref : Type :=
| Self
| Val (v : value).

(** ** The monad of method bodies *)

Definition M (A : Type) : Type := world -> outcome A * world.

Definition ret {A} (a : A) : M A := fun w => (Return a, w).

Definition raise {A} (e : exn) : M A := fun w => (Raise e, w).

Definition bind {A B} (m : M A) (k : A -> M B) : M B :=
  fun w =>
    match m w with
    | (Return a, w') => k a w'
    | (Raise e, w') => (Raise e, w')
    end.

Notation "x <- m ;; k" := (bind m (fun x => k))
  (at level 61, m at next level, right associativity).
Notation "m ;;; k" := (bind m (fun _ => k))
  (at level 61, right associativity).

Definition lift {A} (o : outcome A) : M A := fun w => (o, w).

Definition get_regex_string : M string :=
  fun w => (Return (regex_string (self w)), w).

Definition set_regex_string (s : string) : M unit :=
  fun w =>
    (Return tt,
     {| self := {| regex_string := s;
                   regex_flags := regex_flags (self w);
                   previous_methods := previous_methods (self w) |};
        stdout := stdout w |}).

Definition get_regex_flags : M (list value) :=
  fun w => (Return (regex_flags (self w)), w).

Definition set_regex_flags (l : list value) : M unit :=
  fun w =>
    (Return tt,
     {| self := {| regex_string := regex_string (self w);
                   regex_flags := l;
                   previous_methods := previous_methods (self w) |};
        stdout := stdout w |}).

(** [self.regex_string += s] *)
Definition iadd_regex_string (s : string) : M unit :=
  old <- get_regex_string ;; set_regex_string (old ++ s).

(** The replacement field [{v}] of an f-string. *)
Definition fmt (v : value) : M string := lift (format v).

(** [print(line)] *)
Definition print (line : string) : M unit :=
  fun w => (Return tt, {| self := self w; stdout := stdout w ++ [line] |}).

(** ** Name resolution

    The class body defines the methods listed in [class_dict]; [__init__]
    gives every instance the attributes of [instance_dict].  The class has
    no base other than [object] and no [__getattr__], so these two lists
    are all that [self.<name>] can find besides the dunder attributes of
    [object].  The module [regex_builder.py] has no import statement: the
    class statement is the only binding of its global namespace. *)

Definition class_dict : list string :=
  [ "__init__"; "_add_flag"; "_apply_changes";
    "case_insensitive"; "multiline"; "match_newlines";
    "as_unicode"; "as_ascii"; "debug_mode";
    "one_or_more"; "zero_or_more"; "zero_or_one";
    "starting_with"; "ending_with"; "match_any_character";
    "match_exactly"; "either_word_or_substring"; "match_either_or";
    "match_previous_or_this"; "set_of"; "match_from_n_to_m_occurrences";
    "match_literal"; "escape"; "match_all_words";
    "match_all_words_and_digits"; "match_all_digits";
    "match_words_up_to_n_chars"; "match_all_chars"; "optional_character";
    "not_set_of"; "match_non_whitespace"; "build" ].

Definition instance_dict : list string :=
  [ "regex_string"; "regex_flags"; "previous_methods" ].

Definition module_globals : list string := [ "RegexStringBuilder" ].

Definition mem (name : string) (names : list string) : bool :=
  existsb (String.eqb name) names.

Definition has_attr (name : string) : bool :=
  mem name instance_dict || mem name class_dict.

(** [self.<name>] for a name that neither the instance nor the class has:
    the attribute lookup raises before any argument is looked at. *)
Definition getattr_missing {A} (name : string)
    (_ : has_attr name = false) : M A :=
  raise (AttributeError "RegexStringBuilder" name).

(** Loading a global name that the module does not bind (and that is no
    builtin). *)
Definition load_unbound {A} (name : string)
    (_ : mem name module_globals = false) : M A :=
  raise (NameError name).

(** [re.<member>]: evaluation starts by loading the name [re]. *)
Definition re_member (member : string) : M value :=
  load_unbound "re" eq_refl.

(** ** The methods, in the order of the class body *)

(** [_add_flag(flag)]: [self.regex_flags.append(flag)]; no [return]
    statement, so the call evaluates to [None]. *)
Definition _add_flag (flag : value) : M value :=
  flags <- get_regex_flags ;;
  set_regex_flags (flags ++ [flag]) ;;;
  ret PyNone.

(** [_apply_changes()] *)
Definition _apply_changes : M value :=
  flag_list <- get_regex_flags ;;
  match flag_list with
  | [] => ret PyNone
  | _ :: _ =>
      flags <- lift (join "|" flag_list) ;;
      getattr_missing (A := value -> M value) "_add_to_regex_string" eq_refl ;;;
      ret PyNone
  end.

Definition flag_operation (member : string) : M ref :=
  flag <- re_member member ;;
  r <- _add_flag flag ;;
  ret (Val r).

Definition case_insensitive : M ref := flag_operation "IGNORECASE".
Definition multiline : M ref := flag_operation "MULTILINE".
Definition match_newlines : M ref := flag_operation "DOTALL".
Definition as_unicode : M ref := flag_operation "UNICODE".
Definition as_ascii : M ref := flag_operation "ASCII".
Definition debug_mode : M ref := flag_operation "DEBUG".

Definition one_or_more (element : value) : M ref :=
  text <- (if is_none element then ret "+"
           else s <- fmt element ;; ret (s ++ "+")) ;;
  iadd_regex_string text ;;;
  ret Self.

Definition zero_or_more (element : value) : M ref :=
  text <- (if is_none element then ret "*"
           else s <- fmt element ;; ret (s ++ "*")) ;;
  iadd_regex_string text ;;;
  ret Self.

Definition zero_or_one (element : value) : M ref :=
  getattr_missing (A := value -> value -> M value) "_add_postfix" eq_refl ;;;
  ret Self.

Definition starting_with (element : value) : M ref :=
  (if is_none element
   then getattr_missing (A := string -> value -> M value)
          "_add_prefix" eq_refl ;;; ret tt
   else getattr_missing (A := value -> value -> M value)
          "_add_prefix" eq_refl ;;; ret tt) ;;;
  ret Self.

Definition ending_with (element : value) : M ref :=
  text <- (if is_none element then ret "$"
           else s <- fmt element ;; ret (s ++ "$")) ;;
  iadd_regex_string text ;;;
  ret Self.

Definition match_any_character (character match_newlines : value) : M ref :=
  text <- (if is_none character then ret "."
           else s <- fmt character ;; ret ("." ++ s)) ;;
  iadd_regex_string text ;;;
  (if truthy match_newlines
   then flags <- get_regex_flags ;;
        set_regex_flags (list_iadd_str flags "| Re.DOTALL")
   else ret tt) ;;;
  ret Self.

Definition match_exactly (element : value) : M ref :=
  (if is_none element
   then temp <- get_regex_string ;;
        set_regex_string "" ;;;
        iadd_regex_string ("^" ++ temp ++ "$")
   else s <- fmt element ;;
        iadd_regex_string ("^" ++ s ++ "$")) ;;;
  ret Self.

Definition either_word_or_substring (element : value) : M ref :=
  (if is_none element
   then temp <- get_regex_string ;;
        set_regex_string "" ;;;
        set_regex_string ("(" ++ temp ++ ")")
   else s <- fmt element ;;
        iadd_regex_string ("(" ++ s ++ ")")) ;;;
  ret Self.

Definition match_either_or (element1 element2 : value) : M ref :=
  s1 <- fmt element1 ;;
  s2 <- fmt element2 ;;
  iadd_regex_string (s1 ++ "|" ++ s2) ;;;
  ret Self.

Definition match_previous_or_this (element : value) : M ref :=
  s <- fmt element ;;
  iadd_regex_string ("|" ++ s) ;;;
  ret Self.

Definition set_of (element : value) : M ref :=
  s <- fmt element ;;
  iadd_regex_string ("[" ++ s ++ "]") ;;;
  ret Self.

Definition match_from_n_to_m_occurrences (n m : value) : M ref :=
  sn <- fmt n ;;
  sm <- fmt m ;;
  iadd_regex_string ("{" ++ sn ++ ", " ++ sm ++ "}") ;;;
  ret Self.

Definition dquote : string := String (ascii_of_nat 34) "".

(** [self.regex_string += element]: no formatting here, the right operand
    of the string concatenation has to be a [str] itself. *)
Definition match_literal (element : value) : M ref :=
  match element with
  | PyStr s => iadd_regex_string s
  | _ =>
      raise (TypeError ("can only concatenate str (not " ++ dquote
                        ++ type_name element ++ dquote ++ ") to str"))
  end ;;;
  ret Self.

Definition escape (element : value) : M ref :=
  s <- fmt element ;;
  iadd_regex_string ("\" ++ s) ;;;
  ret Self.

Definition match_all_words : M ref :=
  iadd_regex_string "\b\w+\b" ;;;
  ret Self.

Definition match_all_words_and_digits : M ref :=
  iadd_regex_string "\b\w*\d*\w+\b" ;;;
  ret Self.

Definition match_all_digits : M ref :=
  iadd_regex_string "\d+" ;;;
  ret Self.

Definition match_words_up_to_n_chars (n : value) : M ref :=
  sn <- fmt n ;;
  iadd_regex_string ("\b\w{" ++ sn ++ ",}\b") ;;;
  ret Self.

Definition match_all_chars : M ref :=
  iadd_regex_string "\S" ;;;
  ret Self.

Definition optional_character (char : value) : M ref :=
  s <- fmt char ;;
  iadd_regex_string (s ++ "?") ;;;
  ret Self.

Definition advisory : string :=
  "This pattern is equivalent to \S, please consider using it (call the  match_non_whitespace method) if you want less verbosity.".

(** The literal ["\s"] of the source is no escape sequence of Python: it
    denotes the two characters backslash and [s]. *)
Definition not_set_of (element : value) : M ref :=
  (if eq_str element "\s" then print advisory else ret tt) ;;;
  s <- fmt element ;;
  iadd_regex_string ("[^" ++ s ++ "]") ;;;
  ret Self.

Definition match_non_whitespace : M ref :=
  iadd_regex_string "\S" ;;;
  ret Self.

Definition build : M ref :=
  _apply_changes ;;;
  s <- get_regex_string ;;
  ret (Val (PyStr s)).

(** ** Calls, chains and statement sequences *)

(** A method call with its arguments.  An argument left out at the call
    site takes the default of the signature: [PyNone] for [element] and
    [character], [PyBool false] for [match_newlines], [PyStr ""] for [m]. *)
Inductive call : Type :=
| CaseInsensitive
| Multiline
| MatchNewlines
| AsUnicode
| AsAscii
| DebugMode
| OneOrMore (element : value)
| ZeroOrMore (element : value)
| ZeroOrOne (element : value)
| StartingWith (element : value)
| EndingWith (element : value)
| MatchAnyCharacter (character match_newlines : value)
| MatchExactly (element : value)
| EitherWordOrSubstring (element : value)
| MatchEitherOr (element1 element2 : value)
| MatchPreviousOrThis (element : value)
| SetOf (element : value)
| MatchFromNToMOccurrences (n m : value)
| MatchLiteral (element : value)
| Escape (element : value)
| MatchAllWords
| MatchAllWordsAndDigits
| MatchAllDigits
| MatchWordsUpToNChars (n : value)
| MatchAllChars
| OptionalCharacter (char : value)
| NotSetOf (element : value)
| MatchNonWhitespace
| Build.

Definition method_name (c : call) : string :=
  match c with
  | CaseInsensitive => "case_insensitive"
  | Multiline => "multiline"
  | MatchNewlines => "match_newlines"
  | AsUnicode => "as_unicode"
  | AsAscii => "as_ascii"
  | DebugMode => "debug_mode"
  | OneOrMore _ => "one_or_more"
  | ZeroOrMore _ => "zero_or_more"
  | ZeroOrOne _ => "zero_or_one"
  | StartingWith _ => "starting_with"
  | EndingWith _ => "ending_with"
  | MatchAnyCharacter _ _ => "match_any_character"
  | MatchExactly _ => "match_exactly"
  | EitherWordOrSubstring _ => "either_word_or_substring"
  | MatchEitherOr _ _ => "match_either_or"
  | MatchPreviousOrThis _ => "match_previous_or_this"
  | SetOf _ => "set_of"
  | MatchFromNToMOccurrences _ _ => "match_from_n_to_m_occurrences"
  | MatchLiteral _ => "match_literal"
  | Escape _ => "escape"
  | MatchAllWords => "match_all_words"
  | MatchAllWordsAndDigits => "match_all_words_and_digits"
  | MatchAllDigits => "match_all_digits"
  | MatchWordsUpToNChars _ => "match_words_up_to_n_chars"
  | MatchAllChars => "match_all_chars"
  | OptionalCharacter _ => "optional_character"
  | NotSetOf _ => "not_set_of"
  | MatchNonWhitespace => "match_non_whitespace"
  | Build => "build"
  end.

(** [builder.<method>(<arguments>)] *)
Definition invoke (c : call) : M ref :=
  match c with
  | CaseInsensitive => case_insensitive
  | Multiline => multiline
  | MatchNewlines => match_newlines
  | AsUnicode => as_unicode
  | AsAscii => as_ascii
  | DebugMode => debug_mode
  | OneOrMore e => one_or_more e
  | ZeroOrMore e => zero_or_more e
  | ZeroOrOne e => zero_or_one e
  | StartingWith e => starting_with e
  | EndingWith e => ending_with e
  | MatchAnyCharacter c nl => match_any_character c nl
  | MatchExactly e => match_exactly e
  | EitherWordOrSubstring e => either_word_or_substring e
  | MatchEitherOr e1 e2 => match_either_or e1 e2
  | MatchPreviousOrThis e => match_previous_or_this e
  | SetOf e => set_of e
  | MatchFromNToMOccurrences n m => match_from_n_to_m_occurrences n m
  | MatchLiteral e => match_literal e
  | Escape e => escape e
  | MatchAllWords => match_all_words
  | MatchAllWordsAndDigits => match_all_words_and_digits
  | MatchAllDigits => match_all_digits
  | MatchWordsUpToNChars n => match_words_up_to_n_chars n
  | MatchAllChars => match_all_chars
  | OptionalCharacter c => optional_character c
  | NotSetOf e => not_set_of e
  | MatchNonWhitespace => match_non_whitespace
  | Build => build
  end.

(** The fluent chain [receiver.c1(..).c2(..)...]: each call is made on what
    the call before it evaluated to; [None] and strings have none of the
    builder's methods. *)
Fixpoint chain (receiver : ref) (calls : list call) : M ref :=
  match calls with
  | [] => ret receiver
  | c :: rest =>
      match receiver with
      | Self => r <- invoke c ;; chain r rest
      | Val v => raise (AttributeError (type_name v) (method_name c))
      end
  end.

(** The statement sequence [builder.c1(..); builder.c2(..); ...], every call
    made on the builder; an exception ends the sequence. *)
Fixpoint statements (calls : list call) : M unit :=
  match calls with
  | [] => ret tt
  | c :: rest => invoke c ;;; statements rest
  end.

(** [build()] called [n] times in a row, the returned values collected. *)
Fixpoint build_times (n : nat) : M (list ref) :=
  match n with
  | O => ret []
  | S k => r <- build ;; rs <- build_times k ;; ret (r :: rs)
  end.

(** The element argument of the operations whose signature gives it the
    default [None]. *)
Definition optional_element (c : call) : option value :=
  match c with
  | OneOrMore e | ZeroOrMore e | StartingWith e | EndingWith e
  | MatchExactly e | EitherWordOrSubstring e => Some e
  | MatchAnyCharacter e _ => Some e
  | _ => None
  end.

(** The two operations documented to act on the whole regex when called
    without an element. *)
Definition wraps (c : call) : bool :=
  match c with
  | MatchExactly _ | EitherWordOrSubstring _ => true
  | _ => false
  end.

Definition is_str (v : value) : bool :=
  match v with PyStr _ => true | _ => false end.

(** The operations whose body starts with a name that cannot be resolved:
    [re] for the flag operations, an undefined helper for the other two. *)
Definition unresolvable (c : call) : bool :=
  match c with
  | CaseInsensitive | Multiline | MatchNewlines
  | AsUnicode | AsAscii | DebugMode
  | ZeroOrOne _ | StartingWith _ => true
  | _ => false
  end.

(** The example of [example.py] and of the class docstring, as a chain. *)
Definition example_chain : list call :=
  [ MatchLiteral (PyStr "http");
    OptionalCharacter (PyStr "s");
    MatchPreviousOrThis (PyStr "ftp");
    EitherWordOrSubstring PyNone;
    MatchLiteral (PyStr "://");
    NotSetOf (PyStr "\s/$.?#");
    MatchAnyCharacter PyNone (PyBool false);
    MatchNonWhitespace;
    ZeroOrMore PyNone;
    MatchExactly PyNone;
    Build ].

(** The operations that, called without an element, replace the buffer by
    a text built around its old content instead of extending it. *)
Definition rewrites_buffer (c : call) : bool :=
  match c with
  | MatchExactly e | EitherWordOrSubstring e => is_none e
  | _ => false
  end.

(** The one call whose body reaches the statement
    [self.regex_flags += "| Re.DOTALL"]: the character has been formatted
    by then and [match_newlines] is true. *)
Definition requests_dotall (c : call) : bool :=
  match c with
  | MatchAnyCharacter ch nl => renders ch && truthy nl
  | _ => false
  end.

(** The one call whose body reaches the [print] statement. *)
Definition prints (c : call) : bool :=
  match c with
  | NotSetOf e => eq_str e "\s"
  | _ => false
  end.

(** The arguments that the body of a call puts into an f-string. *)
Definition formatted (c : call) : list value :=
  match c with
  | OneOrMore e | ZeroOrMore e | EndingWith e | MatchExactly e
  | EitherWordOrSubstring e | MatchPreviousOrThis e | SetOf e | Escape e
  | NotSetOf e => [e]
  | MatchAnyCharacter ch _ => [ch]
  | OptionalCharacter ch => [ch]
  | MatchWordsUpToNChars n => [n]
  | MatchEitherOr e1 e2 => [e1; e2]
  | MatchFromNToMOccurrences n m => [n; m]
  | _ => []
  end.

(** Calls that can be followed by a further call in a fluent chain: the
    mutators with a working body, given arguments that they can turn into
    text ([match_literal] a string, the others values within the limit of
    the integer conversion). *)
Definition fluent (c : call) : bool :=
  negb (unresolvable c)
  && match c with
     | Build => false
     | MatchLiteral e => is_str e
     | _ => true
     end
  && forallb renders (formatted c).

(** The world [w] with the text [p] in front of its pattern buffer. *)
Definition prepend (p : string) (w : world) : world :=
  {| self := {| regex_string := p ++ regex_string (self w);
                regex_flags := regex_flags (self w);
                previous_methods := previous_methods (self w) |};
     stdout := stdout w |}.

(** The world a computation leaves behind, whether it returned or raised,
    and what it evaluated to. *)
Definition after {A} (m : M A) (w : world) : world := snd (m w).
Definition result {A} (m : M A) (w : world) : outcome A := fst (m w).

(** * Properties *)

Create HintDb builder.

#[local] Hint Unfold
  bind ret raise lift fmt get_regex_string set_regex_string get_regex_flags
  set_regex_flags iadd_regex_string print getattr_missing load_unbound
  re_member after result : builder.

#[local] Hint Unfold
  _add_flag _apply_changes flag_operation case_insensitive multiline
  match_newlines as_unicode as_ascii debug_mode one_or_more zero_or_more
  zero_or_one starting_with ending_with match_any_character match_exactly
  either_word_or_substring match_either_or match_previous_or_this set_of
  match_from_n_to_m_occurrences match_literal escape match_all_words
  match_all_words_and_digits match_all_digits match_words_up_to_n_chars
  match_all_chars optional_character not_set_of match_non_whitespace
  build : builder.

Ltac run := autounfold with builder; cbn.

(** Unfolds the body of the call at hand and splits on its tests and on the
    outcome of each formatting. *)
Ltac step_call :=
  cbn [invoke]; autounfold with builder; cbn;
  repeat match goal with
         | |- context [format ?v] => destruct (format v) eqn:?; cbn
         | |- context [if ?b then _ else _] => destruct b eqn:?; cbn
         end.

(** ** Strings, joins and formatting *)

Lemma append_nil_r (s : string) : s ++ "" = s.
Proof. induction s as [|c s IH]; cbn; [reflexivity | now rewrite IH]. Qed.

Lemma append_assoc (s t u : string) : (s ++ t) ++ u = s ++ t ++ u.
Proof. induction s as [|c s IH]; cbn; [reflexivity | now rewrite IH]. Qed.

Lemma join_from_all_str (i : nat) (sep : string) (items : list value) :
  forallb is_str items = true -> exists t, join_from i sep items = Return t.
Proof.
  revert i. induction items as [|v rest IH]; intros i Hall.
  - now exists "".
  - cbn in Hall. apply andb_prop in Hall as [Hv Hrest].
    destruct v; try discriminate. cbn.
    destruct rest as [|v' rest']; [now eexists|].
    destruct (IH (S i) Hrest) as [t Ht]. rewrite Ht. now eexists.
Qed.

Lemma join_from_not_all_str (i : nat) (sep : string) (items : list value) :
  forallb is_str items = false ->
  exists msg, join_from i sep items = Raise (TypeError msg).
Proof.
  revert i. induction items as [|v rest IH]; intros i H; [discriminate H|].
  cbn in H. destruct v; try (eexists; reflexivity).
  cbn in H. destruct rest as [|v' rest']; [discriminate H|].
  destruct (IH (S i) H) as [msg Hmsg].
  exists msg. cbn [join_from]. cbn [join_from] in Hmsg. now rewrite Hmsg.
Qed.

(** Formatting fails for one kind of value only, an integer whose numeral
    is longer than the limit, and then with [ValueError]. *)
Lemma format_raises (v : value) (x : exn) :
  format v = Raise x ->
  exists z msg,
    v = PyInt z /\ x = ValueError msg
    /\ int_max_str_digits < digits z.
Proof.
  destruct v as [ | [|] | z | s]; cbn; try discriminate.
  unfold int_to_str. destruct (Nat.leb_spec (digits z) int_max_str_digits);
    [discriminate|].
  intros [= <-]. eauto.
Qed.

(** The numeral of a power of ten is a one followed by zeros, so its
    length is known without computing the power. *)
Lemma pow10_decimal (n : nat) :
  (10 ^ Z.of_nat n)%Z
  = Z.of_int (Decimal.Pos (Decimal.D1 (Nat.iter n Decimal.D0 Decimal.Nil))).
Proof.
  change (Decimal.D1 (Nat.iter n Decimal.D0 Decimal.Nil))
    with (Decimal.app (Decimal.D1 Decimal.Nil)
            (Nat.iter n Decimal.D0 Decimal.Nil)).
  cbn [Z.of_int]. rewrite DecimalZ.of_uint_iter_D0.
  induction n as [|n IH]; [reflexivity|].
  rewrite Nat2Z.inj_succ, Z.pow_succ_r by lia.
  rewrite IH. reflexivity.
Qed.

Lemma length_zeros (n : nat) :
  String.length
    (NilEmpty.string_of_uint (Nat.iter n Decimal.D0 Decimal.Nil))
  = n.
Proof.
  induction n as [|n IH]; [reflexivity|].
  change (Nat.iter (S n) Decimal.D0 Decimal.Nil)
    with (Decimal.D0 (Nat.iter n Decimal.D0 Decimal.Nil)).
  cbn [NilEmpty.string_of_uint String.length]. now rewrite IH.
Qed.

Lemma digits_pow10 (n : nat) : digits (10 ^ Z.of_nat n) = S n.
Proof.
  unfold digits, decimal.
  rewrite Z.abs_eq by (apply Z.pow_nonneg; lia).
  rewrite pow10_decimal, DecimalZ.to_of.
  change (Decimal.norm
            (Decimal.Pos
               (Decimal.D1 (Nat.iter n Decimal.D0 Decimal.Nil))))
    with (Decimal.Pos (Decimal.D1 (Nat.iter n Decimal.D0 Decimal.Nil))).
  change (String.length
            (NilZero.string_of_int
               (Decimal.Pos
                  (Decimal.D1 (Nat.iter n Decimal.D0 Decimal.Nil)))))
    with (S (String.length
               (NilEmpty.string_of_uint
                  (Nat.iter n Decimal.D0 Decimal.Nil)))).
  now rewrite length_zeros.
Qed.

Lemma renders_pow10 (n : nat) :
  renders (PyInt (10 ^ Z.of_nat n)) = Nat.leb (S n) int_max_str_digits.
Proof.
  unfold renders, format, int_to_str. rewrite digits_pow10.
  destruct (Nat.leb (S n) int_max_str_digits); reflexivity.
Qed.

(** The limit sits between the smallest integer of 4300 digits and the
    smallest of 4301. *)
Lemma int_conversion_limit :
  renders (PyInt (10 ^ 4299)) = true /\ renders (PyInt (10 ^ 4300)) = false.
Proof.
  change 4299%Z with (Z.of_nat 4299). change 4300%Z with (Z.of_nat 4300).
  rewrite !renders_pow10. split; reflexivity.
Qed.

(** ** The building blocks of [build] *)

Lemma apply_changes_no_flags (w : world) :
  regex_flags (self w) = [] -> _apply_changes w = (Return PyNone, w).
Proof. intros H. unfold _apply_changes. run. now rewrite H. Qed.

Lemma apply_changes_with_flags (w : world) :
  regex_flags (self w) <> [] ->
  exists e, _apply_changes w = (Raise e, w)
            /\ (forallb is_str (regex_flags (self w)) = true ->
                e = AttributeError "RegexStringBuilder" "_add_to_regex_string").
Proof.
  intros H. unfold _apply_changes, bind, get_regex_flags.
  destruct (regex_flags (self w)) as [|f fl] eqn:E; [congruence|].
  unfold lift. destruct (join "|" (f :: fl)) as [t|e] eqn:J.
  - eexists. split; [reflexivity | reflexivity].
  - exists e. split; [reflexivity|].
    intros Hall. destruct (join_from_all_str 0 "|" (f :: fl) Hall) as [t Ht].
    unfold join in J. congruence.
Qed.

Lemma build_no_flags (w : world) :
  regex_flags (self w) = [] ->
  build w = (Return (Val (PyStr (regex_string (self w)))), w).
Proof.
  intros H. unfold build, bind. rewrite (apply_changes_no_flags w H).
  reflexivity.
Qed.

Lemma build_with_flags (w : world) :
  regex_flags (self w) <> [] ->
  exists e, build w = (Raise e, w)
            /\ (forallb is_str (regex_flags (self w)) = true ->
                e = AttributeError "RegexStringBuilder" "_add_to_regex_string").
Proof.
  intros H. destruct (apply_changes_with_flags w H) as [e [He Hs]].
  exists e. split; [|exact Hs]. unfold build, bind. now rewrite He.
Qed.

(** Case analysis on what [build] does in a world. *)
Lemma build_cases (w : world) :
  (regex_flags (self w) = []
   /\ build w = (Return (Val (PyStr (regex_string (self w)))), w))
  \/ (regex_flags (self w) <> [] /\ exists x, build w = (Raise x, w)).
Proof.
  destruct (regex_flags (self w)) as [|f fl] eqn:E.
  - left. split; [reflexivity|]. now apply build_no_flags.
  - right. split; [discriminate|].
    destruct (build_with_flags w) as [x [Hx _]]; [congruence|].
    now exists x.
Qed.

(** ** Calls that cannot be resolved *)

Lemma flag_operation_raises (member : string) (w : world) :
  flag_operation member w = (Raise (NameError "re"), w).
Proof. reflexivity. Qed.

Lemma zero_or_one_raises (e : value) (w : world) :
  zero_or_one e w
  = (Raise (AttributeError "RegexStringBuilder" "_add_postfix"), w).
Proof. reflexivity. Qed.

Lemma starting_with_raises (e : value) (w : world) :
  starting_with e w
  = (Raise (AttributeError "RegexStringBuilder" "_add_prefix"), w).
Proof. destruct e; reflexivity. Qed.

(** [_add_flag] itself works: one token more at the end of the flag list,
    the buffer as it was, [None] returned. *)
Lemma add_flag_effect (flag : value) (w : world) :
  result (_add_flag flag) w = Return PyNone
  /\ regex_flags (self (after (_add_flag flag) w))
     = (regex_flags (self w) ++ [flag])%list
  /\ regex_string (self (after (_add_flag flag) w)) = regex_string (self w).
Proof. repeat split. Qed.

(** Every other mutator returns the builder, whatever the state, when it
    can turn its arguments into text: [match_literal] is given a string
    and no integer argument is beyond the limit of the conversion. *)
Lemma resolvable_mutator_returns_self (c : call) (w : world) :
  unresolvable c = false ->
  c <> Build ->
  (forall e, c = MatchLiteral e -> is_str e = true) ->
  forallb renders (formatted c) = true ->
  result (invoke c) w = Return Self.
Proof.
  intros Hres Hbuild Hlit Hren.
  destruct c as [ | | | | | | e | e | e | e | e | ch nl | e | e | e1 e2 | e
                | e | n m | e | e | | | | n | | ch | e | | ];
    cbn in Hres.
  19: { specialize (Hlit e eq_refl). destruct e; try discriminate.
        reflexivity. }
  all: try discriminate; try congruence.
  all: revert Hren; cbn [formatted forallb]; unfold renders, result;
    step_call; intros Hren; try discriminate Hren; reflexivity.
Qed.

(** ** The operation history is never written *)

Lemma invoke_preserves_history (c : call) (w : world) :
  previous_methods (self (after (invoke c) w)) = previous_methods (self w).
Proof.
  destruct c as [ | | | | | | e | e | e | e | e | ch nl | e | e | e1 e2 | e
                | e | n m | e | e | | | | n | | ch | e | | ].
  29: { destruct (build_cases w) as [[_ H] | [_ [x H]]];
        unfold after; cbn [invoke]; now rewrite H. }
  19: { destruct e; reflexivity. }
  all: unfold after; step_call; reflexivity.
Qed.

Lemma statements_preserve_history (calls : list call) (w : world) :
  previous_methods (self (after (statements calls) w))
  = previous_methods (self w).
Proof.
  revert w. induction calls as [|c rest IH]; intros w; [reflexivity|].
  pose proof (invoke_preserves_history c w) as Hc.
  unfold after in *. cbn [statements]. unfold bind.
  destruct (invoke c w) as [[r|e] w']; cbn in Hc |- *.
  - now rewrite IH.
  - exact Hc.
Qed.

Lemma chain_preserves_history (calls : list call) (r : ref) (w : world) :
  previous_methods (self (after (chain r calls) w))
  = previous_methods (self w).
Proof.
  revert r w. induction calls as [|c rest IH]; intros r w; [reflexivity|].
  destruct r as [|v]; [|reflexivity].
  pose proof (invoke_preserves_history c w) as Hc.
  unfold after in *. cbn [chain]. unfold bind.
  destruct (invoke c w) as [[r'|e] w']; cbn in Hc |- *.
  - now rewrite IH.
  - exact Hc.
Qed.

(** * The claims *)

(** C1 (fails on the code).  Operations that raise on every state and every
    argument: [zero_or_one] and [starting_with] call helpers the class does
    not define, the six flag operations load the name [re] that the module
    never imports, and [build] on a non-empty flag list calls a third
    undefined helper.  Each leaves the world as it found it. *)
Theorem operations_raise (w : world) (e : value) :
  zero_or_one e w
  = (Raise (AttributeError "RegexStringBuilder" "_add_postfix"), w)
  /\ starting_with e w
     = (Raise (AttributeError "RegexStringBuilder" "_add_prefix"), w)
  /\ case_insensitive w = (Raise (NameError "re"), w)
  /\ multiline w = (Raise (NameError "re"), w)
  /\ match_newlines w = (Raise (NameError "re"), w)
  /\ as_unicode w = (Raise (NameError "re"), w)
  /\ as_ascii w = (Raise (NameError "re"), w)
  /\ debug_mode w = (Raise (NameError "re"), w)
  /\ (regex_flags (self w) <> [] -> exists x, build w = (Raise x, w)).
Proof.
  split; [apply zero_or_one_raises|].
  split; [apply starting_with_raises|].
  repeat (split; [apply flag_operation_raises|]).
  intros H. destruct (build_with_flags w H) as [x [Hx _]]. now exists x.
Qed.

(** C2 (fails on the code).  On a non-empty flag list [build()] returns no
    string: it raises and leaves the builder unchanged.  When every flag is
    a string the join succeeds and the exception is the [AttributeError] of
    the undefined [_add_to_regex_string]. *)
Theorem build_raises_with_flags (w : world) :
  regex_flags (self w) <> [] ->
  exists x, build w = (Raise x, w)
            /\ (forallb is_str (regex_flags (self w)) = true ->
                x = AttributeError "RegexStringBuilder"
                      "_add_to_regex_string").
Proof. apply build_with_flags. Qed.

Lemma build_raises_with_flags_witness :
  let w := after (match_any_character PyNone (PyBool true)) fresh in
  regex_flags (self w) <> []
  /\ exists x, build w = (Raise x, w)
               /\ (forallb is_str (regex_flags (self w)) = true ->
                   x = AttributeError "RegexStringBuilder"
                         "_add_to_regex_string").
Proof.
  intros w. split; [discriminate|].
  apply (build_raises_with_flags w). discriminate.
Defined.

(** C3.  The chain of [example.py] on a fresh builder returns the string
    [^(https?|ftp)://[^\s/$.?#].\S*$]; no flag is set and nothing is
    printed on the way. *)
Theorem example_chain_result :
  chain Self example_chain fresh
  = (Return (Val (PyStr "^(https?|ftp)://[^\s/$.?#].\S*$")),
     {| self := {| regex_string := "^(https?|ftp)://[^\s/$.?#].\S*$";
                   regex_flags := [];
                   previous_methods := [] |};
        stdout := [] |}).
Proof. vm_compute. reflexivity. Qed.

(** C4.  With an empty flag list [build()] returns the pattern buffer as it
    is. *)
Theorem build_returns_buffer_without_flags (w : world) :
  regex_flags (self w) = [] ->
  result build w = Return (Val (PyStr (regex_string (self w)))).
Proof. intros H. unfold result. now rewrite build_no_flags. Qed.

Lemma build_returns_buffer_without_flags_witness :
  let w := after (set_of (PyStr "abc")) fresh in
  regex_flags (self w) = []
  /\ result build w = Return (Val (PyStr "[abc]")).
Proof.
  intros w. split; [reflexivity|].
  apply (build_returns_buffer_without_flags w). reflexivity.
Defined.

(** C5 (fails on the code in its flag part).  When the character can be
    formatted (it always can when it is [None] or a string, as the
    signature asks), [match_any_character(c, nl)] returns the builder and
    appends [.] or [.c] to the buffer; when [nl] is true it extends the
    flag list with the eleven characters of the string [| Re.DOTALL], one
    list item per character, not with one token.  An integer beyond the
    limit of the conversion makes the call raise before it changes
    anything. *)
Theorem match_any_character_effect (w : world) (c nl : value) :
  match format c with
  | Return s =>
      result (match_any_character c nl) w = Return Self
      /\ regex_string (self (after (match_any_character c nl) w))
         = regex_string (self w) ++ (if is_none c then "." else "." ++ s)
      /\ regex_flags (self (after (match_any_character c nl) w))
         = (if truthy nl
            then (regex_flags (self w)
                  ++ [PyStr "|"; PyStr " "; PyStr "R"; PyStr "e"; PyStr ".";
                      PyStr "D"; PyStr "O"; PyStr "T"; PyStr "A"; PyStr "L";
                      PyStr "L"])%list
            else regex_flags (self w))
      /\ List.length
           (regex_flags (self (after (match_any_character c nl) w)))
         = List.length (regex_flags (self w))
           + (if truthy nl then 11 else 0)
  | Raise x => match_any_character c nl w = (Raise x, w)
  end.
Proof.
  destruct (format c) as [s|x] eqn:E.
  - unfold result, after, match_any_character, bind, fmt, lift.
    rewrite E. destruct (is_none c); cbn; destruct (truthy nl); cbn;
      repeat split; try reflexivity; try lia;
      rewrite length_app; reflexivity.
  - destruct (format_raises c x E) as [z [msg [-> _]]].
    unfold match_any_character, bind, fmt, lift. cbn [is_none].
    rewrite E. reflexivity.
Qed.

(** C6 (fails on the code).  Each of the six flag operations raises
    [NameError] for the name [re] before [_add_flag] is reached: the flag
    list and the buffer stay as they were and nothing is returned. *)
Theorem flag_operations_raise (w : world) :
  Forall (fun op : M ref => op w = (Raise (NameError "re"), w))
    [ case_insensitive; multiline; match_newlines;
      as_unicode; as_ascii; debug_mode ].
Proof. repeat constructor. Qed.

(** C7 (fails on the code for [starting_with]).  Called with an element
    that formats to the text [s], each operation with an optional element
    returns the builder and leaves the old buffer followed by a text made
    of [s] alone; called without an element it appends its one character,
    and [match_exactly] and [either_word_or_substring] wrap the whole
    buffer.  [starting_with] is the exception in both forms: it raises
    [AttributeError] for the undefined [_add_prefix] and appends nothing. *)
Theorem optional_element_effect (w : world) (e nl : value) (s : string) :
  is_none e = false ->
  format e = Return s ->
  (one_or_more e w
   = (Return Self,
      after (set_regex_string (regex_string (self w) ++ s ++ "+")) w)
   /\ zero_or_more e w
      = (Return Self,
         after (set_regex_string (regex_string (self w) ++ s ++ "*")) w)
   /\ ending_with e w
      = (Return Self,
         after (set_regex_string (regex_string (self w) ++ s ++ "$")) w)
   /\ (result (match_any_character e nl) w = Return Self
       /\ regex_string (self (after (match_any_character e nl) w))
          = regex_string (self w) ++ "." ++ s)
   /\ match_exactly e w
      = (Return Self,
         after (set_regex_string
                  (regex_string (self w) ++ "^" ++ s ++ "$")) w)
   /\ either_word_or_substring e w
      = (Return Self,
         after (set_regex_string
                  (regex_string (self w) ++ "(" ++ s ++ ")")) w)
   /\ starting_with e w
      = (Raise (AttributeError "RegexStringBuilder" "_add_prefix"), w))
  /\ (one_or_more PyNone w
      = (Return Self,
         after (set_regex_string (regex_string (self w) ++ "+")) w)
      /\ zero_or_more PyNone w
         = (Return Self,
            after (set_regex_string (regex_string (self w) ++ "*")) w)
      /\ ending_with PyNone w
         = (Return Self,
            after (set_regex_string (regex_string (self w) ++ "$")) w)
      /\ (result (match_any_character PyNone nl) w = Return Self
          /\ regex_string (self (after (match_any_character PyNone nl) w))
             = regex_string (self w) ++ ".")
      /\ match_exactly PyNone w
         = (Return Self,
            after (set_regex_string
                     ("^" ++ regex_string (self w) ++ "$")) w)
      /\ either_word_or_substring PyNone w
         = (Return Self,
            after (set_regex_string
                     ("(" ++ regex_string (self w) ++ ")")) w)
      /\ starting_with PyNone w
         = (Raise (AttributeError "RegexStringBuilder" "_add_prefix"), w)).
Proof.
  intros Hnone Hfmt. split.
  - unfold one_or_more, zero_or_more, ending_with, match_any_character,
      match_exactly, either_word_or_substring, result, after, bind, fmt,
      lift.
    rewrite Hnone, Hfmt. cbn.
    repeat (split; [reflexivity|]).
    split; [destruct (truthy nl); split; reflexivity|].
    repeat (split; [reflexivity|]).
    apply starting_with_raises.
  - unfold result, after. cbn.
    repeat (split; [reflexivity|]).
    split; [destruct (truthy nl); split; reflexivity|].
    repeat (split; [reflexivity|]).
    reflexivity.
Qed.

Lemma optional_element_effect_witness :
  is_none (PyStr "a") = false
  /\ format (PyStr "a") = Return "a"
  /\ starting_with (PyStr "a") (after (match_literal (PyStr "x")) fresh)
     = (Raise (AttributeError "RegexStringBuilder" "_add_prefix"),
        after (match_literal (PyStr "x")) fresh)
  /\ match_exactly (PyStr "a") (after (match_literal (PyStr "x")) fresh)
     = (Return Self,
        after (set_regex_string "x^a$")
          (after (match_literal (PyStr "x")) fresh)).
Proof.
  split; [reflexivity|]. split; [reflexivity|].
  pose proof (optional_element_effect
                (after (match_literal (PyStr "x")) fresh)
                (PyStr "a") (PyBool false) "a" eq_refl eq_refl) as H.
  split; [apply H | apply H].
Defined.

(** C8 (fails on the code).  No operation writes [previous_methods]: after
    any sequence of calls on a fresh builder, made as a chain or as separate
    statements, the history is still the empty list of [__init__]. *)
Theorem history_stays_empty (calls : list call) :
  previous_methods (self (after (statements calls) fresh)) = []
  /\ previous_methods (self (after (chain Self calls) fresh)) = [].
Proof.
  split.
  - now rewrite statements_preserve_history.
  - now rewrite chain_preserves_history.
Qed.

(** C9.  [not_set_of(e)] returns the builder and appends [[^e]] to the
    buffer, leaving flags and history alone; it prints the advisory exactly
    when [e] is the two-character string backslash, [s], and the buffer is
    extended in the same way whether or not it prints.  This holds for
    every [e] that can be formatted, so for every string; an integer beyond
    the limit of the conversion makes the call raise before it changes or
    prints anything. *)
Theorem not_set_of_effect (w : world) (e : value) :
  match format e with
  | Return s =>
      result (not_set_of e) w = Return Self
      /\ regex_string (self (after (not_set_of e) w))
         = regex_string (self w) ++ "[^" ++ s ++ "]"
      /\ regex_flags (self (after (not_set_of e) w)) = regex_flags (self w)
      /\ previous_methods (self (after (not_set_of e) w))
         = previous_methods (self w)
      /\ stdout (after (not_set_of e) w)
         = (stdout w ++ (if eq_str e "\s" then [advisory] else []))%list
  | Raise x => not_set_of e w = (Raise x, w)
  end
  /\ (eq_str e "\s" = true
      <-> e = PyStr (String (ascii_of_nat 92) (String (ascii_of_nat 115) ""))).
Proof.
  split.
  - destruct (format e) as [s|x] eqn:E.
    + unfold result, after, not_set_of, bind, fmt, lift. rewrite E.
      destruct (eq_str e "\s"); cbn; rewrite ?app_nil_r;
        repeat split; reflexivity.
    + destruct (format_raises e x E) as [z [msg [-> _]]].
      unfold not_set_of, bind, fmt, lift. cbn [eq_str]. rewrite E.
      destruct w as [b out]. reflexivity.
  - split.
    + intros H. destruct e; try discriminate. cbn in H.
      apply String.eqb_eq in H. now subst.
    + intros ->. reflexivity.
Qed.

(** C10.  With an empty flag list [build()] changes nothing in the builder
    nor on standard output, so [n] calls in a row return [n] times the
    buffer and leave the world as it was. *)
Theorem build_repeatable_without_flags (w : world) (n : nat) :
  regex_flags (self w) = [] ->
  build_times n w
  = (Return (repeat (Val (PyStr (regex_string (self w)))) n), w).
Proof.
  intros H. induction n as [|k IH]; [reflexivity|].
  cbn [build_times repeat]. unfold bind at 1.
  rewrite (build_no_flags w H). unfold bind. now rewrite IH.
Qed.

Lemma build_repeatable_without_flags_witness :
  regex_flags (self (after (match_all_digits) fresh)) = []
  /\ build_times 3 (after (match_all_digits) fresh)
     = (Return [Val (PyStr "\d+"); Val (PyStr "\d+"); Val (PyStr "\d+")],
        after (match_all_digits) fresh).
Proof.
  split; [reflexivity|].
  apply (build_repeatable_without_flags (after match_all_digits fresh) 3).
  reflexivity.
Defined.

(** * Further properties of the methods *)

(** Closes the cases the splitting of [step_call] makes up: a value whose
    formatting raises is an integer, so it is neither [None] nor equal to a
    string. *)
Ltac absurd_format :=
  match goal with
  | H : format ?v = Raise _, H' : is_none ?v = true |- _ =>
      destruct (format_raises _ _ H) as [? [? [-> _]]]; discriminate H'
  | H : format ?v = Raise _, H' : eq_str ?v _ = true |- _ =>
      destruct (format_raises _ _ H) as [? [? [-> _]]]; discriminate H'
  end.

Lemma invoke_buffer_infix (c : call) (w : world) :
  exists before behind,
    regex_string (self (after (invoke c) w))
    = before ++ regex_string (self w) ++ behind.
Proof.
  destruct c as [ | | | | | | e | e | e | e | e | ch nl | e | e | e1 e2 | e
                | e | n m | e | e | | | | n | | ch | e | | ].
  29: { destruct (build_cases w) as [[_ H] | [_ [x H]]];
        exists "", ""; unfold after; cbn [invoke]; rewrite H; cbn;
        now rewrite append_nil_r. }
  19: { destruct e; try (exists "", ""; cbn; now rewrite append_nil_r).
        eexists "", _. reflexivity. }
  all: step_call;
    first [ exists "^", "$"; reflexivity
          | exists "(", ")"; reflexivity
          | eexists "", _; reflexivity
          | exists "", ""; cbn; now rewrite append_nil_r ].
Qed.

(** One step of a statement sequence, in terms of [after] and [result]. *)
Lemma statements_cons (c : call) (rest : list call) (w : world) :
  statements (c :: rest) w
  = match result (invoke c) w with
    | Return _ => statements rest (after (invoke c) w)
    | Raise x => (Raise x, after (invoke c) w)
    end.
Proof.
  cbn [statements]. unfold bind, result, after.
  destruct (invoke c w) as [[r|x] w']; reflexivity.
Qed.

(** X1.  No operation deletes or alters what the buffer holds: after any
    sequence of calls the buffer is its old content with text put in front
    of it and behind it. *)
Theorem statements_keep_buffer (calls : list call) (w : world) :
  exists before behind,
    regex_string (self (after (statements calls) w))
    = before ++ regex_string (self w) ++ behind.
Proof.
  revert w. induction calls as [|c rest IH]; intros w.
  - exists "", "". cbn. now rewrite append_nil_r.
  - destruct (invoke_buffer_infix c w) as [b1 [e1 H1]].
    unfold after at 1. rewrite statements_cons.
    destruct (result (invoke c) w) as [r|x].
    + destruct (IH (after (invoke c) w)) as [b2 [e2 H2]].
      exists (b2 ++ b1), (e1 ++ e2). fold (after (statements rest)
        (after (invoke c) w)). rewrite H2, H1.
      now rewrite !append_assoc.
    + exists b1, e1. exact H1.
Qed.

(** X2.  A call that raises has had no effect: the builder and standard
    output are as they were before the call. *)
Theorem raise_leaves_world (c : call) (w : world) (x : exn) :
  result (invoke c) w = Raise x -> after (invoke c) w = w.
Proof.
  destruct c as [ | | | | | | e | e | e | e | e | ch nl | e | e | e1 e2 | e
                | e | n m | e | e | | | | n | | ch | e | | ];
    intros H.
  29: { destruct (build_cases w) as [[_ Hb] | [_ [y Hb]]];
        unfold result, after in *; cbn [invoke] in *; rewrite Hb in *;
        [discriminate H | reflexivity]. }
  19: { destruct e; try reflexivity. discriminate H. }
  all: try reflexivity.
  all: try (destruct e; reflexivity).
  all: revert H; unfold result; step_call; intros H;
    try discriminate H; try absurd_format; reflexivity.
Qed.

Lemma raise_leaves_world_witness :
  result (invoke (MatchLiteral (PyInt 5))) fresh
  = Raise (TypeError ("can only concatenate str (not " ++ dquote
                      ++ "int" ++ dquote ++ ") to str"))
  /\ after (invoke (MatchLiteral (PyInt 5))) fresh = fresh.
Proof.
  split; [reflexivity|].
  apply (raise_leaves_world (MatchLiteral (PyInt 5)) fresh
           (TypeError ("can only concatenate str (not " ++ dquote
                       ++ "int" ++ dquote ++ ") to str"))).
  reflexivity.
Defined.

(** ** Fluent chains *)

Lemma fluent_returns_self (c : call) (w : world) :
  fluent c = true -> result (invoke c) w = Return Self.
Proof.
  unfold fluent. intros H. apply andb_prop in H as [H Hren].
  apply andb_prop in H as [Hres Hrest].
  apply negb_true_iff in Hres.
  apply resolvable_mutator_returns_self; [exact Hres | | | exact Hren].
  - intros ->. discriminate Hrest.
  - intros e ->. exact Hrest.
Qed.

(** X3.  For calls that all have a working body and arguments they can
    turn into text, the fluent chain [builder.c1(..).c2(..)...] and the
    statements [builder.c1(..); builder.c2(..); ...] do the same to the
    builder, neither raises, and the chain evaluates to the builder. *)
Theorem chain_is_statements (calls : list call) (w : world) :
  forallb fluent calls = true ->
  chain Self calls w = (Return Self, after (statements calls) w)
  /\ result (statements calls) w = Return tt.
Proof.
  revert w. induction calls as [|c rest IH]; intros w Hall.
  - split; reflexivity.
  - cbn in Hall. apply andb_prop in Hall as [Hc Hrest].
    pose proof (fluent_returns_self c w Hc) as Hr.
    unfold after, result in *. cbn [chain statements]. unfold bind.
    destruct (invoke c w) as [[r|x] w']; cbn in Hr; [|discriminate Hr].
    injection Hr as ->. exact (IH w' Hrest).
Qed.

Lemma chain_is_statements_witness :
  forallb fluent [SetOf (PyStr "ab"); OneOrMore PyNone; EndingWith PyNone]
  = true
  /\ (chain Self [SetOf (PyStr "ab"); OneOrMore PyNone; EndingWith PyNone]
        fresh
      = (Return Self,
         after (statements
                  [SetOf (PyStr "ab"); OneOrMore PyNone; EndingWith PyNone])
           fresh)
      /\ result (statements
                   [SetOf (PyStr "ab"); OneOrMore PyNone; EndingWith PyNone])
           fresh
         = Return tt).
Proof.
  split; [reflexivity|].
  apply (chain_is_statements
           [SetOf (PyStr "ab"); OneOrMore PyNone; EndingWith PyNone] fresh).
  reflexivity.
Defined.

(** ** The flag list *)

Lemma invoke_flags (c : call) (w : world) :
  regex_flags (self (after (invoke c) w))
  = if requests_dotall c
    then (regex_flags (self w) ++ chars "| Re.DOTALL")%list
    else regex_flags (self w).
Proof.
  destruct c as [ | | | | | | e | e | e | e | e | ch nl | e | e | e1 e2 | e
                | e | n m | e | e | | | | n | | ch | e | | ];
    cbn [requests_dotall].
  29: { destruct (build_cases w) as [[_ H] | [_ [x H]]];
        unfold after; cbn [invoke]; now rewrite H. }
  19: { destruct e; reflexivity. }
  all: unfold after, renders; step_call; try absurd_format; reflexivity.
Qed.

(** X4.  The flag list changes in one way only: each
    [match_any_character] with a true [match_newlines] that a sequence of
    calls reaches extends it by the eleven characters of [| Re.DOTALL];
    no call removes or reorders what it holds. *)
Theorem flags_only_grow_by_dotall (calls : list call) (w : world) :
  exists k,
    k <= List.length (filter requests_dotall calls)
    /\ regex_flags (self (after (statements calls) w))
       = (regex_flags (self w)
          ++ concat (repeat (chars "| Re.DOTALL") k))%list
    /\ (result (statements calls) w = Return tt ->
        k = List.length (filter requests_dotall calls)).
Proof.
  revert w. induction calls as [|c rest IH]; intros w.
  - exists 0. cbn. rewrite app_nil_r.
    split; [lia | split; [reflexivity | reflexivity]].
  - pose proof (invoke_flags c w) as Hc.
    unfold after at 1, result at 1. rewrite statements_cons.
    destruct (result (invoke c) w) as [r|x].
    + destruct (IH (after (invoke c) w)) as [k [Hle [Hfl Hex]]].
      fold (after (statements rest) (after (invoke c) w)).
      fold (result (statements rest) (after (invoke c) w)).
      rewrite Hfl, Hc. cbn [filter].
      destruct (requests_dotall c); cbn [List.length].
      * exists (S k). cbn [repeat concat]. rewrite <- !app_assoc.
        split; [lia | split; [reflexivity|]].
        intros H. f_equal. now apply Hex.
      * exists k. split; [lia | split; [reflexivity | exact Hex]].
    + cbn [fst snd]. rewrite Hc. cbn [filter].
      destruct (requests_dotall c); cbn [List.length].
      * exists 1. cbn [repeat concat]. rewrite app_nil_r.
        split; [lia | split; [reflexivity | discriminate]].
      * exists 0. cbn [repeat concat]. rewrite app_nil_r.
        split; [lia | split; [reflexivity | discriminate]].
Qed.

Lemma invoke_keeps_flags_nonempty (c : call) (w : world) :
  regex_flags (self w) <> [] ->
  regex_flags (self (after (invoke c) w)) <> [].
Proof.
  intros H. rewrite invoke_flags. destruct (requests_dotall c); [|exact H].
  destruct (regex_flags (self w)); [congruence | discriminate].
Qed.

Lemma statements_keep_flags_nonempty (calls : list call) (w : world) :
  regex_flags (self w) <> [] ->
  regex_flags (self (after (statements calls) w)) <> [].
Proof.
  revert w. induction calls as [|c rest IH]; intros w H; [exact H|].
  unfold after. rewrite statements_cons.
  destruct (result (invoke c) w) as [r|x].
  - apply IH. now apply invoke_keeps_flags_nonempty.
  - now apply invoke_keeps_flags_nonempty.
Qed.

(** X5.  No operation empties the flag list, so once it holds a flag
    [build()] raises after whatever further calls are made on the
    builder. *)
Theorem build_raises_once_flagged (calls : list call) (w : world) :
  regex_flags (self w) <> [] ->
  exists x, result build (after (statements calls) w) = Raise x.
Proof.
  intros H. apply (statements_keep_flags_nonempty calls) in H.
  destruct (build_with_flags _ H) as [x [Hx _]].
  exists x. unfold result. now rewrite Hx.
Qed.

Lemma build_raises_once_flagged_witness :
  regex_flags
    (self (after (match_any_character (PyStr "a") (PyBool true)) fresh))
  <> []
  /\ exists x,
       result build
         (after (statements [MatchLiteral (PyStr "b"); MatchExactly PyNone])
            (after (match_any_character (PyStr "a") (PyBool true)) fresh))
       = Raise x.
Proof.
  split; [discriminate|].
  apply (build_raises_once_flagged
           [MatchLiteral (PyStr "b"); MatchExactly PyNone]
           (after (match_any_character (PyStr "a") (PyBool true)) fresh)).
  discriminate.
Defined.

(** X6.  A chain of working mutators whose arguments can be turned into
    text and that never asks for the dot-all flag, closed by [build()],
    returns the buffer those mutators leave, from any builder without
    flags: such a chain cannot raise. *)
Theorem fluent_chain_builds (calls : list call) (w : world) :
  forallb fluent calls = true ->
  existsb requests_dotall calls = false ->
  regex_flags (self w) = [] ->
  chain Self (calls ++ [Build]) w
  = (Return (Val (PyStr (regex_string (self (after (statements calls) w))))),
     after (statements calls) w).
Proof.
  revert w. induction calls as [|c rest IH]; intros w Hall Hdot Hfl.
  - cbn [app chain invoke]. unfold bind. rewrite (build_no_flags w Hfl).
    reflexivity.
  - cbn in Hall, Hdot. apply andb_prop in Hall as [Hc Hrest].
    apply orb_false_elim in Hdot as [Hdc Hdrest].
    pose proof (fluent_returns_self c w Hc) as Hr.
    pose proof (invoke_flags c w) as Hf. rewrite Hdc, Hfl in Hf.
    unfold after, result in *. cbn [app chain statements]. unfold bind.
    destruct (invoke c w) as [[r|x] w']; cbn in Hr, Hf; [|discriminate Hr].
    injection Hr as ->. exact (IH w' Hrest Hdrest Hf).
Qed.

Lemma fluent_chain_builds_witness :
  forallb fluent [MatchAllDigits; MatchFromNToMOccurrences (PyInt 2) (PyInt 4)]
  = true
  /\ existsb requests_dotall
       [MatchAllDigits; MatchFromNToMOccurrences (PyInt 2) (PyInt 4)]
     = false
  /\ regex_flags (self fresh) = []
  /\ chain Self
       ([MatchAllDigits; MatchFromNToMOccurrences (PyInt 2) (PyInt 4)]
        ++ [Build]) fresh
     = (Return (Val (PyStr "\d+{2, 4}")),
        after (statements
                 [MatchAllDigits;
                  MatchFromNToMOccurrences (PyInt 2) (PyInt 4)]) fresh).
Proof.
  repeat (split; [reflexivity|]).
  apply (fluent_chain_builds
           [MatchAllDigits; MatchFromNToMOccurrences (PyInt 2) (PyInt 4)]
           fresh); reflexivity.
Defined.

(** ** Standard output *)

Lemma invoke_stdout (c : call) (w : world) :
  stdout (after (invoke c) w)
  = (stdout w ++ (if prints c then [advisory] else []))%list.
Proof.
  destruct c as [ | | | | | | e | e | e | e | e | ch nl | e | e | e1 e2 | e
                | e | n m | e | e | | | | n | | ch | e | | ];
    cbn [prints].
  29: { destruct (build_cases w) as [[_ H] | [_ [x H]]];
        unfold after; cbn [invoke]; rewrite H; cbn; now rewrite app_nil_r. }
  19: { destruct e; cbn; now rewrite app_nil_r. }
  all: unfold after; step_call; try absurd_format; now rewrite ?app_nil_r.
Qed.

(** X7.  The builder prints nothing but the advisory of [not_set_of]: a
    sequence of calls adds to standard output one advisory line for each
    [not_set_of] of the two-character string backslash, [s] that it
    reaches, and exactly one for each such call when it does not raise. *)
Theorem stdout_only_advisories (calls : list call) (w : world) :
  exists k,
    k <= List.length (filter prints calls)
    /\ stdout (after (statements calls) w)
       = (stdout w ++ repeat advisory k)%list
    /\ (result (statements calls) w = Return tt ->
        k = List.length (filter prints calls)).
Proof.
  revert w. induction calls as [|c rest IH]; intros w.
  - exists 0. cbn. rewrite app_nil_r.
    split; [lia | split; [reflexivity | reflexivity]].
  - pose proof (invoke_stdout c w) as Hc.
    unfold after at 1, result at 1. rewrite statements_cons.
    destruct (result (invoke c) w) as [r|x].
    + destruct (IH (after (invoke c) w)) as [k [Hle [Hout Hex]]].
      fold (after (statements rest) (after (invoke c) w)).
      fold (result (statements rest) (after (invoke c) w)).
      rewrite Hout, Hc. cbn [filter].
      destruct (prints c); cbn [List.length].
      * exists (S k). rewrite <- app_assoc.
        split; [lia | split; [reflexivity|]].
        intros H. f_equal. now apply Hex.
      * exists k. rewrite app_nil_r.
        split; [lia | split; [reflexivity | exact Hex]].
    + cbn [fst snd]. rewrite Hc. cbn [filter].
      destruct (prints c); cbn [List.length].
      * exists 1. split; [lia | split; [reflexivity | discriminate]].
      * exists 0. split; [lia | split; [reflexivity | discriminate]].
Qed.

(** ** Arguments that cannot be turned into text *)

(** X8.  [match_literal] concatenates its argument as it is, without
    formatting it: given a string it returns the builder and leaves the
    buffer extended by exactly that string, everything else untouched;
    given anything else it raises [TypeError] without touching the
    builder.  So it returns the builder exactly when the argument is a
    string. *)
Theorem match_literal_needs_str (e : value) (w : world) :
  (forall s, e = PyStr s ->
     match_literal e w
     = (Return Self,
        after (set_regex_string (regex_string (self w) ++ s)) w))
  /\ (result (match_literal e) w = Return Self <-> is_str e = true)
  /\ (is_str e = false ->
      exists msg, match_literal e w = (Raise (TypeError msg), w)).
Proof.
  split; [intros s ->; reflexivity|].
  destruct e; cbn; (split; [split; intros H; try discriminate H;
                            reflexivity |]);
    intros H; try discriminate H; eexists; reflexivity.
Qed.

(** X9.  When the flag list holds an item that is not a string, [build()]
    fails in the join already: it raises [TypeError] and leaves the builder
    unchanged. *)
Theorem build_type_error (w : world) :
  forallb is_str (regex_flags (self w)) = false ->
  exists msg, build w = (Raise (TypeError msg), w).
Proof.
  intros H. unfold build, _apply_changes, bind, get_regex_flags, lift.
  destruct (regex_flags (self w)) as [|f fl] eqn:E; [discriminate H|].
  destruct (join_from_not_all_str 0 "|" (f :: fl) H) as [msg Hmsg].
  unfold join. rewrite Hmsg. now exists msg.
Qed.

Lemma build_type_error_witness :
  forallb is_str (regex_flags (self (after (_add_flag (PyInt 2)) fresh)))
  = false
  /\ exists msg,
       build (after (_add_flag (PyInt 2)) fresh)
       = (Raise (TypeError msg), after (_add_flag (PyInt 2)) fresh).
Proof.
  split; [reflexivity|].
  apply (build_type_error (after (_add_flag (PyInt 2)) fresh)).
  reflexivity.
Defined.

(** X11.  A mutator with a working body that has to format an integer
    beyond the limit of the conversion raises [ValueError] and leaves the
    builder and standard output as they were. *)
Theorem unformattable_argument_raises (c : call) (w : world) :
  unresolvable c = false ->
  forallb renders (formatted c) = false ->
  exists msg, invoke c w = (Raise (ValueError msg), w).
Proof.
  intros Hres Hren.
  destruct c as [ | | | | | | e | e | e | e | e | ch nl | e | e | e1 e2 | e
                | e | n m | e | e | | | | n | | ch | e | | ];
    cbn in Hres, Hren; try discriminate.
  all: revert Hren; unfold renders; step_call; intros Hren;
    try discriminate Hren; try absurd_format.
  all: match goal with
       | H : format _ = Raise _ |- exists _, (Raise _, _) = _ =>
           destruct (format_raises _ _ H) as [? [msg [_ [-> _]]]];
           exists msg; destruct w as [[? ? ?] ?]; reflexivity
       end.
Qed.

Lemma unformattable_argument_raises_witness :
  unresolvable (MatchWordsUpToNChars (PyInt (10 ^ 4300))) = false
  /\ forallb renders (formatted (MatchWordsUpToNChars (PyInt (10 ^ 4300))))
     = false
  /\ exists msg,
       invoke (MatchWordsUpToNChars (PyInt (10 ^ 4300))) fresh
       = (Raise (ValueError msg), fresh).
Proof.
  assert (Hlimit : forallb renders
                     (formatted (MatchWordsUpToNChars (PyInt (10 ^ 4300))))
                   = false).
  { cbn [formatted forallb]. change 4300%Z with (Z.of_nat 4300).
    rewrite renders_pow10. reflexivity. }
  split; [reflexivity|]. split; [exact Hlimit|].
  exact (unformattable_argument_raises
           (MatchWordsUpToNChars (PyInt (10 ^ 4300))) fresh
           eq_refl Hlimit).
Defined.

(** ** Independence of the buffer content *)

Lemma build_prepend (p : string) (w : world) :
  after build (prepend p w) = prepend p (after build w)
  /\ match result build w with
     | Return _ => exists r, result build (prepend p w) = Return r
     | Raise x => result build (prepend p w) = Raise x
     end.
Proof.
  unfold after, result, build, _apply_changes, bind, get_regex_flags, lift,
    get_regex_string, ret.
  cbn [prepend self regex_flags].
  destruct (regex_flags (self w)) as [|f fl].
  - cbn. split; [reflexivity | eexists; reflexivity].
  - generalize (join "|" (f :: fl)). intros [t|x]; cbn; split; reflexivity.
Qed.

Lemma invoke_prepend (c : call) (p : string) (w : world) :
  rewrites_buffer c = false ->
  after (invoke c) (prepend p w) = prepend p (after (invoke c) w)
  /\ match result (invoke c) w with
     | Return _ => exists r, result (invoke c) (prepend p w) = Return r
     | Raise x => result (invoke c) (prepend p w) = Raise x
     end.
Proof.
  intros Hrw.
  destruct c as [ | | | | | | e | e | e | e | e | ch nl | e | e | e1 e2 | e
                | e | n m | e | e | | | | n | | ch | e | | ];
    cbn in Hrw.
  29: { apply build_prepend. }
  19: { destruct e; cbn; unfold prepend; cbn; rewrite ?append_assoc;
        (split; [reflexivity | try reflexivity; eexists; reflexivity]). }
  all: try (split; reflexivity).
  all: try (destruct e; split; reflexivity).
  all: try rewrite Hrw.
  all: unfold prepend; step_call; rewrite ?append_assoc;
    try discriminate;
    (split; [reflexivity | try reflexivity; eexists; reflexivity]).
Qed.

(** X10.  What a sequence of calls appends, prints and raises does not
    depend on the text already in the buffer, as long as no call is a
    [match_exactly()] or [either_word_or_substring()] without element:
    run on a buffer with [p] in front, the sequence has the same outcome
    and leaves the same world with [p] in front. *)
Theorem statements_prefix_independent
    (calls : list call) (p : string) (w : world) :
  existsb rewrites_buffer calls = false ->
  statements calls (prepend p w)
  = (result (statements calls) w, prepend p (after (statements calls) w)).
Proof.
  revert w. induction calls as [|c rest IH]; intros w H; [reflexivity|].
  cbn in H. apply orb_false_elim in H as [Hc Hrest].
  destruct (invoke_prepend c p w Hc) as [Haft Hres].
  unfold result at 1, after at 1. rewrite !statements_cons.
  destruct (result (invoke c) w) as [r|x].
  - destruct Hres as [r' Hr']. rewrite Hr', Haft.
    rewrite (IH _ Hrest). reflexivity.
  - rewrite Hres, Haft. reflexivity.
Qed.

Lemma statements_prefix_independent_witness :
  existsb rewrites_buffer
    [Escape (PyStr "."); MatchExactly (PyStr "a"); ZeroOrOne (PyStr "b")]
  = false
  /\ statements
       [Escape (PyStr "."); MatchExactly (PyStr "a"); ZeroOrOne (PyStr "b")]
       (prepend "xy" fresh)
     = (result (statements
                  [Escape (PyStr "."); MatchExactly (PyStr "a");
                   ZeroOrOne (PyStr "b")]) fresh,
        prepend "xy"
          (after (statements
                    [Escape (PyStr "."); MatchExactly (PyStr "a");
                     ZeroOrOne (PyStr "b")]) fresh)).
Proof.
  split; [reflexivity|].
  apply (statements_prefix_independent
           [Escape (PyStr "."); MatchExactly (PyStr "a");
            ZeroOrOne (PyStr "b")] "xy" fresh).
  reflexivity.
Defined.
